(** * AIEngine request gateway (ai/src/main.py)

    A shallow embedding of the gRPC servicer [AIEngine] and of the training
    dispatcher [dispatch_train_agent].  The module-level globals of main.py
    ([work_queue], [data_managers], [connector_managers]) and the class
    attributes it reads or writes ([Trainer.TRAINING_LOCK],
    [Trainer.SAVED_MODELS], [Dispatch.TRAINING_THREAD]) are the fields of one
    explicit [State]; every servicer method is a function from a state and a
    request to the next state and an outcome (a reply or a raised Python
    exception).  Mutations made before an exception is raised stay in the
    returned state, as they do in Python.  A servicer call is one transition:
    what other threads do between two calls appears as transitions of its
    own, never inside a call. *)

From Stdlib Require Import ZArith Bool List Lia.
From stdpp Require Import base option strings list gmap fin_maps relations pretty.

Local Open Scope string_scope.
Local Open Scope Z_scope.

(** ** Outcomes of a Python call *)

Inductive exn : Type :=
| KeyError (key : string)
| ValueError (msg : string)
| InvalidIndexError
| OtherError (msg : string).

Inductive outcome (A : Type) : Type :=
| Ret (a : A)
| Raise (e : exn).
Arguments Ret {A} a.
Arguments Raise {A} e.

(** ** Messages of the service interface *)

Record Response : Type := mkResponse {
  result : string;
  message : string;
  error : bool
}.

Record ExportModelResult : Type := mkExportModelResult {
  response : Response;
  model_path : string
}.

Record StartTrainingRequest : Type := mkStartTrainingRequest {
  st_pod : string;
  st_epoch_time : Z;
  learning_algorithm : string;
  number_episodes : Z;
  flight : string;
  training_goal : string
}.

Record InitRequest : Type := mkInitRequest {
  init_pod : string;
  actions : list (string * string);
  external_reward_funcs : string;
  fields : list string
}.

Record AddDataRequest : Type := mkAddDataRequest {
  add_pod : string;
  csv_data : string
}.

Record ExportModelRequest : Type := mkExportModelRequest {
  export_pod : string;
  tag : string
}.

Record ImportModelRequest : Type := mkImportModelRequest {
  import_pod : string;
  import_path : string
}.

(** ** Pod state *)

(** A pandas [Timestamp]: nanoseconds since the Unix epoch.  A [Timedelta]
    is a number of nanoseconds as well.  The limits of the 64-bit
    representation (years 1677 to 2262), outside which pandas raises, are
    not modelled. *)
Definition Timestamp : Type := Z.

(** [pd.to_datetime(secs, unit="s")]. *)
Definition to_datetime (secs : Z) : Timestamp := secs * 1000000000.

(** [data_manager.param]: the Epoch Window and the period added to it. *)
Record DataParam : Type := mkDataParam {
  epoch_time : Timestamp;
  end_time : Timestamp;
  period_secs : Z
}.

(** The part of a [DataManager] that main.py reads or writes.
    [massive_table_filled] is kept as the time index of the filled table, one
    entry per row.

    Modelled from the spec: [window_span] is what [get_window_span()] returns,
    the minimum number of data rows required before training may start;
    [shape] and [action_names] are what [get_shape()] and the attribute of
    that name hold.  The class itself lives in data.py. *)
Record DataManager : Type := mkDataManager {
  param : DataParam;
  massive_table_filled : list Timestamp;
  window_span : Z;
  shape : list Z;
  action_names : list string
}.

(** A connector manager is an opaque handle for main.py. *)
Record ConnectorManager : Type := mkConnectorManager {
  connector_handle : nat
}.

(** The arguments [dispatch_train_agent] hands to the training thread.  The
    two manager arguments are references to the objects stored in the
    registries under [job_pod]. *)
Record TrainingJob : Type := mkTrainingJob {
  job_pod : string;
  job_connector_manager : ConnectorManager;
  job_algorithm : string;
  job_number_episodes : Z;
  job_flight : string;
  job_training_goal : string
}.

(** Payloads and commands of [work_queue]: the tuples [("add_data", request)]
    and [("init", request)]. *)
Inductive payload : Type :=
| AddDataPayload (request : AddDataRequest)
| InitPayload (request : InitRequest).

Definition Command : Type := (string * payload)%type.

Record State : Type := mkState {
  work_queue : list Command;
  data_managers : gmap string DataManager;
  connector_managers : gmap string ConnectorManager;
  (** [Trainer.TRAINING_LOCK.locked()] *)
  TRAINING_LOCK : bool;
  (** [Dispatch.TRAINING_THREAD], the thread object created last *)
  TRAINING_THREAD : option TrainingJob;
  (** every [Thread.start()] made so far and not yet finished, oldest first *)
  threads : list TrainingJob;
  (** [Trainer.SAVED_MODELS], a pod name to the text of its [Path] *)
  SAVED_MODELS : gmap string string
}.

Definition set_work_queue (st : State) (q : list Command) : State :=
  mkState q (data_managers st) (connector_managers st) (TRAINING_LOCK st)
          (TRAINING_THREAD st) (threads st) (SAVED_MODELS st).

Definition set_data_managers (st : State) (m : gmap string DataManager) : State :=
  mkState (work_queue st) m (connector_managers st) (TRAINING_LOCK st)
          (TRAINING_THREAD st) (threads st) (SAVED_MODELS st).

Definition set_connector_managers (st : State) (m : gmap string ConnectorManager) : State :=
  mkState (work_queue st) (data_managers st) m (TRAINING_LOCK st)
          (TRAINING_THREAD st) (threads st) (SAVED_MODELS st).

Definition set_TRAINING_LOCK (st : State) (b : bool) : State :=
  mkState (work_queue st) (data_managers st) (connector_managers st) b
          (TRAINING_THREAD st) (threads st) (SAVED_MODELS st).

Definition start_thread (st : State) (job : TrainingJob) : State :=
  mkState (work_queue st) (data_managers st) (connector_managers st) (TRAINING_LOCK st)
          (Some job) (threads st ++ [job]) (SAVED_MODELS st).

Definition set_SAVED_MODELS (st : State) (m : gmap string string) : State :=
  mkState (work_queue st) (data_managers st) (connector_managers st) (TRAINING_LOCK st)
          (TRAINING_THREAD st) (threads st) m.

(** In-place assignment to [data_manager.param.epoch_time] and
    [data_manager.param.end_time]. *)
Definition set_epoch_window (dm : DataManager) (e : Timestamp) : DataManager :=
  mkDataManager (mkDataParam e (e + period_secs (param dm)) (period_secs (param dm)))
                (massive_table_filled dm) (window_span dm) (shape dm) (action_names dm).

(** ** The pandas index lookup *)

Fixpoint strictly_increasing (index : list Timestamp) : bool :=
  match index with
  | [] => true
  | x :: rest =>
      match rest with
      | [] => true
      | y :: _ => (x <? y) && strictly_increasing rest
      end
  end.

Fixpoint weakly_increasing (index : list Timestamp) : bool :=
  match index with
  | [] => true
  | x :: rest =>
      match rest with
      | [] => true
      | y :: _ => (x <=? y) && weakly_increasing rest
      end
  end.

(** Number of leading index entries that are at or before [key]. *)
Fixpoint count_le (index : list Timestamp) (key : Timestamp) : nat :=
  match index with
  | [] => O
  | x :: rest => if x <=? key then S (count_le rest key) else O
  end.

(** [index.get_loc(key, "ffill")] on the table's time index: the position of
    the last entry at or before [key]; [KeyError] when every entry is later
    (or the table is empty).  The data manager keeps the index in strictly
    increasing time order; pandas refuses an index with repeated entries
    ([InvalidIndexError]) and one that is not monotonic ([ValueError]).  A
    strictly decreasing index, which pandas would also accept, is outside
    this model and is reported like a non-monotonic one. *)
Definition get_loc_ffill (index : list Timestamp) (key : Timestamp) : outcome nat :=
  if strictly_increasing index then
    match count_le index key with
    | O => Raise (KeyError "epoch_time")
    | S i => Ret i
    end
  else if weakly_increasing index then Raise InvalidIndexError
  else Raise (ValueError "index must be monotonic increasing or decreasing").

(** [len(table.iloc[i:])] for a position [i] returned by [get_loc]. *)
Definition len_iloc_from (index : list Timestamp) (i : nat) : Z :=
  Z.of_nat (length index - i).

(** ** The training dispatcher *)

(** [dispatch_train_agent]: it reads the lock and never takes it. *)
Definition dispatch_train_agent (st : State) (job : TrainingJob) : State * bool :=
  if TRAINING_LOCK st then (st, false)
  else (start_thread st job, true).

(** ** The servicer *)

Section AIEngine.

(** Collaborators that main.py imports or reaches through library calls. *)

(** The text an f-string gives for [ts.timestamp()], a float of seconds. *)
Variable timestamp_repr : Timestamp -> string.
(** [validate_rewards] of validation.py. *)
Variable validate_rewards : list (string * string) -> string -> bool.
(** [str(Path(s))]. *)
Variable Path_str : string -> string.
(** [(import_path / "meta.json").exists()]. *)
Variable meta_json_exists : string -> bool.
(** Reading meta.json and taking its ["algorithm"] entry. *)
Variable read_meta_algorithm : string -> outcome string.
(** [get_agent(algorithm, shape, n_actions).load(import_path)]. *)
Variable agent_load : string -> list Z -> nat -> string -> outcome bool.

Definition GetHealth (st : State) : State * Response :=
  (st, mkResponse "ok" "" false).

Definition AddData (st : State) (request : AddDataRequest) : State * Response :=
  (set_work_queue st (work_queue st ++ [("add_data", AddDataPayload request)]),
   mkResponse "ok" "" false).

Definition StartTraining (st : State) (request : StartTrainingRequest)
  : State * outcome Response :=
  match data_managers st !! st_pod request with
  | None => (st, Raise (KeyError (st_pod request)))
  | Some data_manager =>
    match connector_managers st !! st_pod request with
    | None => (st, Raise (KeyError (st_pod request)))
    | Some connector_manager =>
      let new_epoch_time := to_datetime (st_epoch_time request) in
      if negb (st_epoch_time request =? 0)
         && (new_epoch_time <? epoch_time (param data_manager))
      then
        (st, Ret (mkResponse
                    "epoch_time_invalid"
                    ("epoch time should be after "
                       +:+ timestamp_repr (epoch_time (param data_manager)))
                    true))
      else
        let data_manager :=
          if negb (st_epoch_time request =? 0)
          then set_epoch_window data_manager new_epoch_time
          else data_manager in
        let st :=
          if negb (st_epoch_time request =? 0)
          then set_data_managers st (<[st_pod request := data_manager]> (data_managers st))
          else st in
        let algorithm := learning_algorithm request in
        let number_episodes :=
          if negb (number_episodes request =? 0) then number_episodes request else 30 in
        let flight := flight request in
        let training_goal := training_goal request in
        match get_loc_ffill (massive_table_filled data_manager)
                            (epoch_time (param data_manager)) with
        | Raise e => (st, Raise e)
        | Ret index_of_epoch =>
          if len_iloc_from (massive_table_filled data_manager) index_of_epoch
             <? window_span data_manager
          then (st, Ret (mkResponse "not_enough_data_for_training" "" true))
          else
            let '(st, started) :=
              dispatch_train_agent
                st (mkTrainingJob (st_pod request) connector_manager algorithm
                                  number_episodes flight training_goal) in
            let result := if started then "started_training" else "already_training" in
            (st, Ret (mkResponse result "" false))
        end
    end
  end.

Definition Init (st : State) (request : InitRequest) : State * Response :=
  if (length (actions request) =? 0)%nat then
    (st, mkResponse "missing_actions" "" true)
  else
    let action_rewards := actions request in
    if negb (validate_rewards action_rewards (external_reward_funcs request)) then
      (st, mkResponse "invalid_reward_function" "" true)
    else if (length (fields request) =? 0)%nat then
      (st, mkResponse "missing_fields" "" true)
    else
      (set_work_queue st (work_queue st ++ [("init", InitPayload request)]),
       mkResponse "ok" "" false).

(** [ExportModel] changes no state.  In the second branch the source builds
    the reply with the keyword [resopnse], which is not a field of
    [ExportModelResult]: the message constructor raises [ValueError] and no
    [pod_not_initialized] reply is produced. *)
Definition ExportModel (st : State) (request : ExportModelRequest)
  : outcome ExportModelResult :=
  match SAVED_MODELS st !! export_pod request with
  | None =>
      Ret (mkExportModelResult
             (mkResponse
                "pod_not_trained"
                "Unable to export a model that hasn't finished at least one training run"
                true)
             "")
  | Some saved =>
      match data_managers st !! export_pod request with
      | None =>
          Raise (ValueError "Protocol message ExportModelResult has no resopnse field")
      | Some _ =>
          if negb (String.eqb (tag request) "latest") then
            Ret (mkExportModelResult
                   (mkResponse "tag_not_yet_supported"
                               "Support for multiple tags coming soon!" true)
                   "")
          else
            Ret (mkExportModelResult (mkResponse "ok" "" false) saved)
      end
  end.

Definition ImportModel (st : State) (request : ImportModelRequest)
  : State * outcome Response :=
  match data_managers st !! import_pod request with
  | None => (st, Ret (mkResponse "pod_not_initialized" "" true))
  | Some data_manager =>
      let model_data_shape := shape data_manager in
      let import_path := import_path request in
      if negb (meta_json_exists import_path) then
        (st, Ret (mkResponse "unable_to_load_model_metadata"
                             ("Unable to find meta data at " +:+ Path_str import_path)
                             true))
      else
        match read_meta_algorithm import_path with
        | Raise e => (st, Raise e)
        | Ret algorithm =>
            match agent_load algorithm model_data_shape
                             (length (action_names data_manager)) import_path with
            | Raise e => (st, Raise e)
            | Ret false =>
                (st, Ret (mkResponse "unable_to_load_model"
                                     ("Unable to find a model at " +:+ Path_str import_path)
                                     true))
            | Ret true =>
                (set_SAVED_MODELS
                   st (<[import_pod request := Path_str import_path]> (SAVED_MODELS st)),
                 Ret (mkResponse "ok" "" false))
            end
        end
  end.

(** ** Runs of the service *)

(** A sequence of [StartTraining] calls served one after the other. *)
Definition run_StartTraining (st : State) (requests : list StartTrainingRequest) : State :=
  foldl (fun st request => fst (StartTraining st request)) st requests.

(** The state after a training thread that held the lock leaves
    [Trainer.train]. *)
Definition finish_thread (st : State) (i : nat) (saved : gmap string string) : State :=
  mkState (work_queue st) (data_managers st) (connector_managers st) false
          (TRAINING_THREAD st) (delete i (threads st)) saved.

(** Modelled from the spec: the actors of the service other than the
    servicer methods above, whose code is in event_loop.py, data.py and
    train.py.  The Event Loop takes commands from the head of the queue;
    processing [init] constructs the pod's two handles and inserts them in
    the Pod Registry, processing [add_data] changes the pod's data manager
    in place.  A training thread holds the training lock for the duration of
    its run and on success writes the artifact location into the Model
    Registry.  No actor deletes a key of a registry.  The servicer methods
    are the functions translated from main.py; [AddInterpretations], whose
    effect is a method of the data manager, appears as an in-place change of
    the pod's data manager. *)
Inductive step : State -> State -> Prop :=
| step_AddData st request :
    step st (fst (AddData st request))
| step_StartTraining st request :
    step st (fst (StartTraining st request))
| step_Init st request :
    step st (fst (Init st request))
| step_ImportModel st request :
    step st (fst (ImportModel st request))
| step_AddInterpretations st pod dm dm' :
    data_managers st !! pod = Some dm ->
    step st (set_data_managers st (<[pod := dm']> (data_managers st)))
| step_loop_init st request rest dm cm :
    work_queue st = ("init", InitPayload request) :: rest ->
    step st (set_work_queue
               (set_connector_managers
                  (set_data_managers st (<[init_pod request := dm]> (data_managers st)))
                  (<[init_pod request := cm]> (connector_managers st)))
               rest)
| step_loop_add_data st request rest dm dm' :
    work_queue st = ("add_data", AddDataPayload request) :: rest ->
    data_managers st !! add_pod request = Some dm ->
    step st (set_work_queue
               (set_data_managers st (<[add_pod request := dm']> (data_managers st)))
               rest)
| step_train_enter st i job :
    TRAINING_LOCK st = false ->
    threads st !! i = Some job ->
    step st (set_TRAINING_LOCK st true)
| step_train_saved st i job path :
    TRAINING_LOCK st = true ->
    threads st !! i = Some job ->
    step st (finish_thread st i (<[job_pod job := path]> (SAVED_MODELS st)))
| step_train_failed st i job :
    TRAINING_LOCK st = true ->
    threads st !! i = Some job ->
    step st (finish_thread st i (SAVED_MODELS st)).

(** Any number of steps. *)
Definition steps : State -> State -> Prop := rtc step.

(** ** The remaining servicer method and runs of servicer calls *)

Record AddInterpretationsRequest : Type := mkAddInterpretationsRequest {
  interp_pod : string;
  indexed_interpretations : list string
}.

(** [data_manager.add_interpretations(...)] of data.py: the data manager as
    the method leaves it, and the exception it raised, if any. *)
Variable add_interpretations : DataManager -> list string -> DataManager * option exn.

Definition AddInterpretations (st : State) (request : AddInterpretationsRequest)
  : State * outcome Response :=
  match data_managers st !! interp_pod request with
  | None => (st, Raise (KeyError (interp_pod request)))
  | Some data_manager =>
      let '(data_manager, raised) :=
        add_interpretations data_manager (indexed_interpretations request) in
      let st :=
        set_data_managers st (<[interp_pod request := data_manager]> (data_managers st)) in
      match raised with
      | Some e => (st, Raise e)
      | None => (st, Ret (mkResponse "ok" "" false))
      end
  end.

(** A call of one of the servicer methods translated above.  [GetInference]
    hands its request to the inference handler and is not among them. *)
Inductive Call : Type :=
| CallGetHealth
| CallAddData (request : AddDataRequest)
| CallAddInterpretations (request : AddInterpretationsRequest)
| CallStartTraining (request : StartTrainingRequest)
| CallInit (request : InitRequest)
| CallExportModel (request : ExportModelRequest)
| CallImportModel (request : ImportModelRequest).

(** The state a call leaves behind. *)
Definition serve (st : State) (call : Call) : State :=
  match call with
  | CallGetHealth => fst (GetHealth st)
  | CallAddData request => fst (AddData st request)
  | CallAddInterpretations request => fst (AddInterpretations st request)
  | CallStartTraining request => fst (StartTraining st request)
  | CallInit request => fst (Init st request)
  | CallExportModel request => st
  | CallImportModel request => fst (ImportModel st request)
  end.

(** Calls served one after the other. *)
Definition serve_all (st : State) (calls : list Call) : State :=
  foldl serve st calls.

(** The commands a call puts on the queue: one for [AddData], one for an
    [Init] whose reply is [ok], none otherwise. *)
Definition enqueued (call : Call) : list Command :=
  match call with
  | CallAddData request => [("add_data", AddDataPayload request)]
  | CallInit request =>
      if negb (length (actions request) =? 0)%nat
         && validate_rewards (actions request) (external_reward_funcs request)
         && negb (length (fields request) =? 0)%nat
      then [("init", InitPayload request)]
      else []
  | _ => []
  end.


(** The pod's data manager and the state after the epoch branch of
    [StartTraining], and the job the call hands to the dispatcher. *)
Definition moved_data_manager (dm : DataManager) (request : StartTrainingRequest)
  : DataManager :=
  if negb (st_epoch_time request =? 0)
  then set_epoch_window dm (to_datetime (st_epoch_time request))
  else dm.

Definition moved_state (st : State) (request : StartTrainingRequest) (dm : DataManager)
  : State :=
  if negb (st_epoch_time request =? 0)
  then set_data_managers
         st (<[st_pod request := moved_data_manager dm request]> (data_managers st))
  else st.

Definition requested_job (request : StartTrainingRequest) (cm : ConnectorManager)
  : TrainingJob :=
  mkTrainingJob (st_pod request) cm (learning_algorithm request)
                (if negb (number_episodes request =? 0)
                 then number_episodes request else 30)
                (flight request) (training_goal request).

(** A second sample function for [add_interpretations]: it stores nothing. *)
Definition sample_add_interpretations (dm : DataManager) (interps : list string)
  : DataManager * option exn :=
  (dm, None).

(** ** Sample data for the examples *)

(** The text Python prints for the float of a timestamp that falls on a
    whole second. *)
Definition whole_seconds_repr (t : Timestamp) : string :=
  pretty (t `div` 1000000000) +:+ ".0".

(** A pod whose table has three rows, ten seconds apart from second 100,
    and needs two rows to train. *)
Definition trader_data : DataManager :=
  mkDataManager (mkDataParam (to_datetime 100) (to_datetime 160) 60000000000)
                [to_datetime 100; to_datetime 110; to_datetime 120]
                2 [10; 4] ["buy"; "sell"].



(** A state whose Model Registry holds a record for a pod that the Pod
    Registry does not know. *)
Definition orphan_record_state : State :=
  mkState [] ∅ ∅ false None [] {["ghost" := "models/ghost"]}.

Definition idle_state (dm : DataManager) (saved : gmap string string) : State :=
  mkState [] {["trader" := dm]} {["trader" := mkConnectorManager 0]}
          false None [] saved.

Definition training_request (epoch : Z) : StartTrainingRequest :=
  mkStartTrainingRequest "trader" epoch "dql" 0 "flight-1" "".

(** Stand-ins for the collaborators: a validator that turns down an empty
    reward expression, a file system with one model directory, and an
    agent that loads from it. *)
Definition sample_validate_rewards (acts : list (string * string)) (funcs : string)
  : bool :=
  forallb (fun act => negb (String.eqb (snd act) "")) acts.

Definition sample_Path_str (s : string) : string := s.

Definition sample_meta_json_exists (s : string) : bool := String.eqb s "models/trader".

Definition sample_read_meta_algorithm (s : string) : outcome string := Ret "dql".

Definition sample_agent_load (algorithm : string) (shape : list Z) (n_actions : nat)
           (s : string) : outcome bool :=
  Ret (String.eqb algorithm "dql").

(** ** Properties of [StartTraining] *)

Lemma to_datetime_zero (secs : Z) : to_datetime secs = 0 <-> secs = 0.
Proof. unfold to_datetime. lia. Qed.


(** Whatever the call does afterwards, the registry it leaves holds for the
    requested pod either the data manager it found or that data manager
    with the requested epoch, which is then not earlier. *)
Lemma StartTraining_data_managers (st : State) (request : StartTrainingRequest) :
  data_managers (fst (StartTraining st request)) = data_managers st
  \/ exists dm,
      data_managers st !! st_pod request = Some dm
      /\ st_epoch_time request <> 0
      /\ epoch_time (param dm) <= to_datetime (st_epoch_time request)
      /\ data_managers (fst (StartTraining st request))
         = <[st_pod request := set_epoch_window dm (to_datetime (st_epoch_time request))]>
             (data_managers st).
Proof.
  unfold StartTraining.
  destruct (data_managers st !! st_pod request) as [dm|] eqn:Hdm; [|by left].
  destruct (connector_managers st !! st_pod request) as [cm|] eqn:Hcm; [|by left].
  destruct (st_epoch_time request =? 0) eqn:Hz; simpl.
  - left.
    destruct (get_loc_ffill _ _); [|done].
    destruct (_ <? _); [done|].
    unfold dispatch_train_agent. by destruct (TRAINING_LOCK st).
  - destruct (to_datetime (st_epoch_time request) <? epoch_time (param dm)) eqn:Hlt;
      [by left|].
    right. exists dm. apply Z.eqb_neq in Hz. apply Z.ltb_ge in Hlt.
    repeat split; try done.
    destruct (get_loc_ffill _ _); [|done].
    destruct (_ <? _); [done|].
    unfold dispatch_train_agent. simpl. by destruct (TRAINING_LOCK st).
Qed.

(** C7.  A pod that is not a key of the Pod Registry makes [StartTraining]
    raise [KeyError] for that pod (the unknown-pod condition): no reply is
    produced, so neither [started_training] nor [already_training], and the
    state is returned as it was, so no training thread is started.  The
    same holds when only the connector handle is missing. *)
Theorem StartTraining_unknown_pod (st : State) (request : StartTrainingRequest) :
  data_managers st !! st_pod request = None
  \/ connector_managers st !! st_pod request = None ->
  StartTraining st request = (st, Raise (KeyError (st_pod request))).
Proof.
  intros [Hdm | Hcm]; unfold StartTraining.
  - by rewrite Hdm.
  - rewrite Hcm. by destruct (data_managers st !! st_pod request).
Qed.



(** C10.  A request whose [epoch_time] is 0 skips the epoch branch: the
    registry of data managers, and with it every Epoch Window, is left as
    it was and no reply is [epoch_time_invalid], also when the stored epoch
    is later than 0.  No call at all can bring a stored epoch that is not
    0 to 0. *)
Theorem StartTraining_epoch_zero_sentinel (st : State) (request : StartTrainingRequest) :
  (st_epoch_time request = 0 ->
   data_managers (fst (StartTraining st request)) = data_managers st
   /\ forall reply, snd (StartTraining st request) = Ret reply ->
                   result reply <> "epoch_time_invalid")
  /\ (forall pod dm,
        data_managers st !! pod = Some dm ->
        epoch_time (param dm) <> 0 ->
        exists dm',
          data_managers (fst (StartTraining st request)) !! pod = Some dm'
          /\ epoch_time (param dm') <> 0).
Proof.
  split.
  - intros Hz. unfold StartTraining.
    destruct (data_managers st !! st_pod request) as [dm|]; [|done].
    destruct (connector_managers st !! st_pod request) as [cm|]; [|done].
    rewrite Hz. simpl.
    destruct (get_loc_ffill _ _); [|done].
    destruct (_ <? _); simpl.
    + split; [done|]. intros reply [= <-]. done.
    + unfold dispatch_train_agent.
      destruct (TRAINING_LOCK st); simpl; (split; [done|]); intros reply [= <-]; done.
  - intros pod dm Hdm Hne.
    destruct (StartTraining_data_managers st request)
      as [-> | (dm0 & Hdm0 & Hnz & Hge & ->)]; [by exists dm|].
    destruct (decide (st_pod request = pod)) as [<- | Hpod].
    + eexists. rewrite lookup_insert_eq. split; [done|]. simpl.
      by rewrite to_datetime_zero.
    + exists dm. by rewrite lookup_insert_ne.
Qed.





Lemma run_StartTraining_app (st : State) (l1 l2 : list StartTrainingRequest) :
  run_StartTraining st (l1 ++ l2) = run_StartTraining (run_StartTraining st l1) l2.
Proof. apply foldl_app. Qed.

(** One call never lowers the stored epoch of any pod. *)
Lemma StartTraining_epoch_le (st : State) (request : StartTrainingRequest)
      (pod : string) (dm : DataManager) :
  data_managers st !! pod = Some dm ->
  exists dm',
    data_managers (fst (StartTraining st request)) !! pod = Some dm'
    /\ epoch_time (param dm) <= epoch_time (param dm').
Proof.
  intros Hdm.
  destruct (StartTraining_data_managers st request)
    as [-> | (dm0 & Hdm0 & Hnz & Hge & ->)]; [exists dm; split; [done|lia]|].
  destruct (decide (st_pod request = pod)) as [<- | Hpod].
  - eexists. rewrite lookup_insert_eq. split; [done|]. simpl. congruence.
  - exists dm. rewrite lookup_insert_ne by done. split; [done|lia].
Qed.


(** ** Properties of [Init] *)


(** ** Properties of [ExportModel] and [ImportModel] *)

(** C2, amended.  For a pod that has a ModelRecord and is in the Pod
    Registry, every request with a tag other than [latest] is answered
    [tag_not_yet_supported]; for a pod without a ModelRecord the answer is
    [pod_not_trained] whatever the tag. *)
Theorem ExportModel_tag_not_yet_supported
        (st : State) (request : ExportModelRequest) :
  (forall saved dm,
      SAVED_MODELS st !! export_pod request = Some saved ->
      data_managers st !! export_pod request = Some dm ->
      tag request <> "latest" ->
      ExportModel st request
        = Ret (mkExportModelResult
                 (mkResponse "tag_not_yet_supported"
                             "Support for multiple tags coming soon!" true)
                 ""))
  /\ (SAVED_MODELS st !! export_pod request = None ->
      exists reply,
        ExportModel st request = Ret reply
        /\ result (response reply) = "pod_not_trained").
Proof.
  unfold ExportModel. split.
  - intros saved dm -> -> Htag.
    apply String.eqb_neq in Htag. by rewrite Htag.
  - intros ->. eexists. split; reflexivity.
Qed.

Lemma ImportModel_data_managers (st : State) (request : ImportModelRequest) :
  data_managers (fst (ImportModel st request)) = data_managers st.
Proof.
  unfold ImportModel.
  destruct (data_managers st !! import_pod request); [|done].
  destruct (meta_json_exists _); simpl; [|done].
  destruct (read_meta_algorithm _); [|done].
  by destruct (agent_load _ _ _ _) as [[]|].
Qed.

(** An [ok] from [ImportModel] means the pod was found in the Pod Registry
    and its record is the one just written. *)
Lemma ImportModel_ok (st st' : State) (request : ImportModelRequest) (reply : Response) :
  ImportModel st request = (st', Ret reply) ->
  result reply = "ok" ->
  is_Some (data_managers st !! import_pod request)
  /\ st' = set_SAVED_MODELS
             st (<[import_pod request := Path_str (import_path request)]>
                   (SAVED_MODELS st)).
Proof.
  unfold ImportModel.
  destruct (data_managers st !! import_pod request) as [dm|]; [|by intros [= <- <-]].
  destruct (meta_json_exists _); simpl; [|by intros [= <- <-]].
  destruct (read_meta_algorithm _); [|done].
  destruct (agent_load _ _ _ _) as [[]|]; [| by intros [= <- <-] | done].
  intros [= <- <-] _. by split.
Qed.

(** No step removes a pod from the Pod Registry or a record from the Model
    Registry. *)
Lemma step_keeps_keys (st st' : State) (pod : string) :
  step st st' ->
  (is_Some (data_managers st !! pod) -> is_Some (data_managers st' !! pod))
  /\ (is_Some (SAVED_MODELS st !! pod) -> is_Some (SAVED_MODELS st' !! pod)).
Proof.
  assert (Hins : forall (V : Type) (m : gmap string V) k v,
             is_Some (m !! pod) -> is_Some (<[k := v]> m !! pod)).
  { intros V m k v Hm. rewrite lookup_insert. by case_decide. }
  destruct 1; simpl; try (split; by auto).
  - (* StartTraining *)
    split.
    + intros [dm Hdm].
      destruct (StartTraining_epoch_le st request pod dm Hdm) as (dm' & -> & _). done.
    + unfold StartTraining.
      destruct (data_managers st !! st_pod request); [|done].
      destruct (connector_managers st !! st_pod request); [|done].
      destruct (_ && _); [done|].
      destruct (get_loc_ffill _ _);
        [|by destruct (negb (st_epoch_time request =? 0))].
      destruct (_ <? _); [by destruct (negb (st_epoch_time request =? 0))|].
      unfold dispatch_train_agent.
      destruct (negb (st_epoch_time request =? 0)); simpl;
        by destruct (TRAINING_LOCK st).
  - (* Init *)
    unfold Init. destruct (_ =? _)%nat; [done|].
    destruct (negb _); [done|]. by destruct (_ =? _)%nat.
  - (* ImportModel *)
    rewrite ImportModel_data_managers. split; [done|].
    unfold ImportModel.
    destruct (data_managers st !! import_pod request); [|done].
    destruct (meta_json_exists _); simpl; [|done].
    destruct (read_meta_algorithm _); [|done].
    destruct (agent_load _ _ _ _) as [[]|]; simpl; auto.
Qed.

Lemma steps_keep_keys (st st' : State) (pod : string) :
  steps st st' ->
  (is_Some (data_managers st !! pod) -> is_Some (data_managers st' !! pod))
  /\ (is_Some (SAVED_MODELS st !! pod) -> is_Some (SAVED_MODELS st' !! pod)).
Proof.
  induction 1 as [|st1 st2 st3 Hstep _ [IHdm IHsaved]]; [done|].
  destruct (step_keeps_keys _ _ pod Hstep) as [Hdm Hsaved].
  split; auto.
Qed.

(** C8.  After [ImportModel] has answered [ok] for a pod, the pod was in
    the Pod Registry when its record was written, and it stays there with
    its ModelRecord through every later step of the service: [ExportModel]
    for that pod always returns a reply, [ok] or [tag_not_yet_supported],
    and never enters the branch for a pod missing from the Pod Registry. *)
Theorem ImportModel_record_implies_initialized
        (st st' st'' : State) (request : ImportModelRequest) (reply : Response)
        (tag : string) :
  ImportModel st request = (st', Ret reply) ->
  result reply = "ok" ->
  steps st' st'' ->
  is_Some (data_managers st !! import_pod request)
  /\ SAVED_MODELS st' !! import_pod request = Some (Path_str (import_path request))
  /\ is_Some (data_managers st'' !! import_pod request)
  /\ is_Some (SAVED_MODELS st'' !! import_pod request)
  /\ exists exported,
      ExportModel st'' (mkExportModelRequest (import_pod request) tag) = Ret exported
      /\ (result (response exported) = "ok"
          \/ result (response exported) = "tag_not_yet_supported").
Proof.
  intros Himport Hok Hsteps.
  destruct (ImportModel_ok _ _ _ _ Himport Hok) as [Hdm ->].
  destruct (steps_keep_keys _ _ (import_pod request) Hsteps) as [Hkeep Hsaved].
  simpl in Hkeep, Hsaved. rewrite lookup_insert_eq in Hsaved.
  specialize (Hkeep Hdm). specialize (Hsaved (mk_is_Some _ _ eq_refl)).
  split; [done|]. split; [simpl; by rewrite lookup_insert_eq|].
  split; [done|]. split; [done|].
  destruct Hkeep as [dm' Hdm'], Hsaved as [saved Hsaved].
  unfold ExportModel. simpl. rewrite Hsaved, Hdm'.
  destruct (negb (String.eqb tag "latest")); eexists; split; eauto.
Qed.

(** ** Properties of the dispatcher *)

Lemma dispatch_train_agent_locked (st : State) (job : TrainingJob) :
  TRAINING_LOCK st = true -> dispatch_train_agent st job = (st, false).
Proof. unfold dispatch_train_agent. by intros ->. Qed.

Lemma dispatch_train_agent_free (st : State) (job : TrainingJob) :
  TRAINING_LOCK st = false ->
  dispatch_train_agent st job = (start_thread st job, true).
Proof. unfold dispatch_train_agent. by intros ->. Qed.

(** The servicer never takes nor releases the training lock. *)
Lemma StartTraining_leaves_lock (st : State) (request : StartTrainingRequest) :
  TRAINING_LOCK (fst (StartTraining st request)) = TRAINING_LOCK st.
Proof.
  unfold StartTraining.
  destruct (data_managers st !! st_pod request); [|done].
  destruct (connector_managers st !! st_pod request); [|done].
  destruct (_ && _); [done|].
  destruct (get_loc_ffill _ _);
    [|by destruct (negb (st_epoch_time request =? 0))].
  destruct (_ <? _); [by destruct (negb (st_epoch_time request =? 0))|].
  unfold dispatch_train_agent.
  destruct (negb (st_epoch_time request =? 0)); simpl;
    destruct (TRAINING_LOCK st) eqn:Hlock; simpl; by rewrite ?Hlock.
Qed.

(** A call with [epoch_time] 0 that passes the data check is answered by
    the state of the lock alone: [already_training] and no new thread when
    it is held, [started_training] and one new thread when it is free. *)
Lemma StartTraining_dispatch (st : State) (request : StartTrainingRequest)
      (dm : DataManager) (cm : ConnectorManager) (index_of_epoch : nat) :
  data_managers st !! st_pod request = Some dm ->
  connector_managers st !! st_pod request = Some cm ->
  st_epoch_time request = 0 ->
  get_loc_ffill (massive_table_filled dm) (epoch_time (param dm)) = Ret index_of_epoch ->
  window_span dm <= len_iloc_from (massive_table_filled dm) index_of_epoch ->
  let job := mkTrainingJob (st_pod request) cm (learning_algorithm request)
                           (if negb (number_episodes request =? 0)
                            then number_episodes request else 30)
                           (flight request) (training_goal request) in
  StartTraining st request =
    if TRAINING_LOCK st
    then (st, Ret (mkResponse "already_training" "" false))
    else (start_thread st job, Ret (mkResponse "started_training" "" false)).
Proof.
  intros Hdm Hcm Hz Hloc Hlen. unfold StartTraining.
  rewrite Hdm, Hcm, Hz. simpl. rewrite Hloc.
  apply Z.ltb_ge in Hlen. rewrite Hlen.
  unfold dispatch_train_agent. by destruct (TRAINING_LOCK st).
Qed.

(** ** Further properties of [ExportModel] and [ImportModel] *)

(** X1.  [ExportModel] answers [ok] with a given path exactly when that path
    is the pod's ModelRecord, the pod is in the Pod Registry and the tag is
    [latest]. *)
Theorem ExportModel_ok_iff (st : State) (request : ExportModelRequest) (path : string) :
  ExportModel st request = Ret (mkExportModelResult (mkResponse "ok" "" false) path)
  <-> SAVED_MODELS st !! export_pod request = Some path
      /\ is_Some (data_managers st !! export_pod request)
      /\ tag request = "latest".
Proof.
  unfold ExportModel.
  destruct (SAVED_MODELS st !! export_pod request) as [saved|].
  - destruct (data_managers st !! export_pod request) as [dm|].
    + destruct (String.eqb (tag request) "latest") eqn:Htag; simpl.
      * apply String.eqb_eq in Htag. split.
        -- intros [= ->]. eauto.
        -- intros ([= ->] & _ & _). done.
      * apply String.eqb_neq in Htag. split; [discriminate|].
        intros (_ & _ & ?). done.
    + split; [discriminate|]. intros (_ & [? ?] & _). discriminate.
  - split; [discriminate|]. intros (? & _). discriminate.
Qed.

(** X2.  [ExportModel] raises exactly when the pod has a ModelRecord and is
    missing from the Pod Registry, and no reply it returns carries the result
    [pod_not_initialized]. *)
Theorem ExportModel_raises_iff (st : State) (request : ExportModelRequest) :
  ((exists e, ExportModel st request = Raise e)
   <-> is_Some (SAVED_MODELS st !! export_pod request)
       /\ data_managers st !! export_pod request = None)
  /\ (forall exported,
        ExportModel st request = Ret exported ->
        result (response exported) <> "pod_not_initialized").
Proof.
  unfold ExportModel.
  destruct (SAVED_MODELS st !! export_pod request) as [saved|].
  - destruct (data_managers st !! export_pod request) as [dm|].
    + destruct (negb (String.eqb (tag request) "latest")); split;
        try (intros exported [= <-]; simpl; discriminate);
        (split; [intros [e ?]; discriminate | intros [_ ?]; discriminate]).
    + split; [|discriminate]. split; [by eauto | by eauto].
  - split; [|intros exported [= <-]; simpl; discriminate].
    split; [intros [e ?]; discriminate | intros [[? ?] _]; discriminate].
Qed.

(** X3.  Round trip: once [ImportModel] has answered [ok], [ExportModel] of
    the same pod with tag [latest] answers [ok] with the imported path. *)
Theorem ImportModel_ExportModel_latest
        (st st' : State) (request : ImportModelRequest) (reply : Response) :
  ImportModel st request = (st', Ret reply) ->
  result reply = "ok" ->
  ExportModel st' (mkExportModelRequest (import_pod request) "latest")
  = Ret (mkExportModelResult (mkResponse "ok" "" false)
                             (Path_str (import_path request))).
Proof.
  intros Himport Hok.
  destruct (ImportModel_ok _ _ _ _ Himport Hok) as [[dm Hdm] ->].
  unfold ExportModel. simpl. by rewrite lookup_insert_eq, Hdm.
Qed.

(** X4.  [ImportModel] is all or nothing: either it answers [ok] and the only
    change is the pod's entry of the Model Registry, or the state is
    returned exactly as it was and any reply carries the error flag. *)
Theorem ImportModel_all_or_nothing (st : State) (request : ImportModelRequest) :
  ImportModel st request
  = (set_SAVED_MODELS
       st (<[import_pod request := Path_str (import_path request)]> (SAVED_MODELS st)),
     Ret (mkResponse "ok" "" false))
  \/ (fst (ImportModel st request) = st
      /\ forall reply, snd (ImportModel st request) = Ret reply ->
                      error reply = true /\ result reply <> "ok").
Proof.
  unfold ImportModel.
  destruct (data_managers st !! import_pod request) as [dm|].
  - destruct (meta_json_exists _); simpl.
    + destruct (read_meta_algorithm _) as [algorithm|e].
      * destruct (agent_load _ _ _ _) as [[]|e]; [by left| |].
        -- right. split; [done|]. intros reply [= <-]. done.
        -- right. split; [done|]. discriminate.
      * right. split; [done|]. discriminate.
    + right. split; [done|]. intros reply [= <-]. done.
  - right. split; [done|]. intros reply [= <-]. done.
Qed.

(** X5.  [ImportModel] answers [ok] exactly when the pod is in the Pod
    Registry, the metadata file exists, an algorithm is read from it, and the
    agent built for the pod's shape and number of actions loads the model. *)
Theorem ImportModel_ok_iff (st : State) (request : ImportModelRequest) :
  snd (ImportModel st request) = Ret (mkResponse "ok" "" false)
  <-> exists dm algorithm,
      data_managers st !! import_pod request = Some dm
      /\ meta_json_exists (import_path request) = true
      /\ read_meta_algorithm (import_path request) = Ret algorithm
      /\ agent_load algorithm (shape dm) (length (action_names dm)) (import_path request)
         = Ret true.
Proof.
  unfold ImportModel.
  destruct (data_managers st !! import_pod request) as [dm|].
  - destruct (meta_json_exists _); simpl.
    + destruct (read_meta_algorithm _) as [algorithm|e].
      * destruct (agent_load _ _ _ _) as [[]|e] eqn:Hload; simpl.
        -- split; [|done]. intros _. by exists dm, algorithm.
        -- split; [discriminate|]. intros (? & ? & [= <-] & _ & [= <-] & ?). congruence.
        -- split; [discriminate|]. intros (? & ? & [= <-] & _ & [= <-] & ?). congruence.
      * split; [discriminate|]. intros (? & ? & _ & _ & ? & _). discriminate.
    + split; [discriminate|]. intros (? & ? & _ & ? & _). discriminate.
  - split; [discriminate|]. intros (? & ? & ? & _). discriminate.
Qed.

(** ** Further properties of [StartTraining] *)

(** The five ways a call for a pod of the Pod Registry can end. *)
Lemma StartTraining_cases (st : State) (request : StartTrainingRequest)
      (dm : DataManager) (cm : ConnectorManager) :
  data_managers st !! st_pod request = Some dm ->
  connector_managers st !! st_pod request = Some cm ->
  (st_epoch_time request <> 0
   /\ to_datetime (st_epoch_time request) < epoch_time (param dm)
   /\ StartTraining st request
      = (st, Ret (mkResponse "epoch_time_invalid"
                             ("epoch time should be after "
                                +:+ timestamp_repr (epoch_time (param dm)))
                             true)))
  \/ ((st_epoch_time request = 0
       \/ epoch_time (param dm) <= to_datetime (st_epoch_time request))
      /\ ((exists e,
              get_loc_ffill (massive_table_filled dm)
                            (epoch_time (param (moved_data_manager dm request)))
              = Raise e
              /\ StartTraining st request = (moved_state st request dm, Raise e))
          \/ exists i,
              get_loc_ffill (massive_table_filled dm)
                            (epoch_time (param (moved_data_manager dm request)))
              = Ret i
              /\ ((len_iloc_from (massive_table_filled dm) i < window_span dm
                   /\ StartTraining st request
                      = (moved_state st request dm,
                         Ret (mkResponse "not_enough_data_for_training" "" true)))
                  \/ (window_span dm <= len_iloc_from (massive_table_filled dm) i
                      /\ TRAINING_LOCK st = true
                      /\ StartTraining st request
                         = (moved_state st request dm,
                            Ret (mkResponse "already_training" "" false)))
                  \/ (window_span dm <= len_iloc_from (massive_table_filled dm) i
                      /\ TRAINING_LOCK st = false
                      /\ StartTraining st request
                         = (start_thread (moved_state st request dm)
                                         (requested_job request cm),
                            Ret (mkResponse "started_training" "" false)))))).
Proof.
  intros Hdm Hcm. unfold StartTraining, moved_state, moved_data_manager, requested_job.
  rewrite Hdm, Hcm.
  destruct (st_epoch_time request =? 0) eqn:Hz; simpl.
  - apply Z.eqb_eq in Hz. right. split; [by left|].
    destruct (get_loc_ffill _ _) as [i|e]; [|left; by exists e].
    right. exists i. split; [done|].
    destruct (_ <? _) eqn:Hlen; [left; by apply Z.ltb_lt in Hlen|].
    apply Z.ltb_ge in Hlen. right. unfold dispatch_train_agent.
    destruct (TRAINING_LOCK st); [by left | by right].
  - apply Z.eqb_neq in Hz.
    destruct (to_datetime (st_epoch_time request) <? epoch_time (param dm)) eqn:Hlt.
    + apply Z.ltb_lt in Hlt. by left.
    + apply Z.ltb_ge in Hlt. right. split; [by right|].
      destruct (get_loc_ffill _ _) as [i|e]; [|left; by exists e].
      right. exists i. split; [done|].
      destruct (len_iloc_from _ _ <? _) eqn:Hlen; [left; by apply Z.ltb_lt in Hlen|].
      apply Z.ltb_ge in Hlen. right. unfold dispatch_train_agent. simpl.
      destruct (TRAINING_LOCK st); [by left | by right].
Qed.

Lemma StartTraining_missing (st : State) (request : StartTrainingRequest) :
  data_managers st !! st_pod request = None
  \/ connector_managers st !! st_pod request = None ->
  StartTraining st request = (st, Raise (KeyError (st_pod request))).
Proof.
  intros [Hdm | Hcm]; unfold StartTraining.
  - by rewrite Hdm.
  - rewrite Hcm. by destruct (data_managers st !! st_pod request).
Qed.

(** Every call falls under [StartTraining_missing] or [StartTraining_cases]. *)
Lemma registry_lookup_cases (st : State) (pod : string) :
  (data_managers st !! pod = None \/ connector_managers st !! pod = None)
  \/ exists dm cm,
      data_managers st !! pod = Some dm /\ connector_managers st !! pod = Some cm.
Proof.
  destruct (data_managers st !! pod) as [dm|]; [|by left; left].
  destruct (connector_managers st !! pod) as [cm|]; [|by left; right].
  right. by exists dm, cm.
Qed.

Lemma moved_state_fields (st : State) (request : StartTrainingRequest) (dm : DataManager) :
  work_queue (moved_state st request dm) = work_queue st
  /\ connector_managers (moved_state st request dm) = connector_managers st
  /\ SAVED_MODELS (moved_state st request dm) = SAVED_MODELS st
  /\ TRAINING_LOCK (moved_state st request dm) = TRAINING_LOCK st
  /\ threads (moved_state st request dm) = threads st
  /\ TRAINING_THREAD (moved_state st request dm) = TRAINING_THREAD st.
Proof. unfold moved_state. by destruct (negb _). Qed.

Lemma moved_state_lookup (st : State) (request : StartTrainingRequest) (dm : DataManager) :
  data_managers st !! st_pod request = Some dm ->
  data_managers (moved_state st request dm) !! st_pod request
  = Some (moved_data_manager dm request)
  /\ forall pod, pod <> st_pod request ->
                 data_managers (moved_state st request dm) !! pod
                 = data_managers st !! pod.
Proof.
  intros Hdm. unfold moved_state, moved_data_manager.
  destruct (negb _); simpl.
  - rewrite lookup_insert_eq. split; [done|].
    intros pod Hne. by rewrite lookup_insert_ne.
  - by split.
Qed.

(** X6.  [StartTraining] touches nothing but the Epoch Window of the pod it
    names and the started threads: the queue, the connector handles, the
    Model Registry and the training lock are as before, every other pod's
    data manager is as before, and the named pod keeps its table, window
    span, shape, action names and period. *)
Theorem StartTraining_frame (st : State) (request : StartTrainingRequest) :
  work_queue (fst (StartTraining st request)) = work_queue st
  /\ connector_managers (fst (StartTraining st request)) = connector_managers st
  /\ SAVED_MODELS (fst (StartTraining st request)) = SAVED_MODELS st
  /\ TRAINING_LOCK (fst (StartTraining st request)) = TRAINING_LOCK st
  /\ (forall pod, pod <> st_pod request ->
                  data_managers (fst (StartTraining st request)) !! pod
                  = data_managers st !! pod)
  /\ (forall dm, data_managers st !! st_pod request = Some dm ->
                 exists dm',
                   data_managers (fst (StartTraining st request)) !! st_pod request
                   = Some dm'
                   /\ massive_table_filled dm' = massive_table_filled dm
                   /\ window_span dm' = window_span dm
                   /\ shape dm' = shape dm
                   /\ action_names dm' = action_names dm
                   /\ period_secs (param dm') = period_secs (param dm)).
Proof.
  assert (Hsame : forall dm, exists dm', Some dm = Some dm'
            /\ massive_table_filled dm' = massive_table_filled dm
            /\ window_span dm' = window_span dm /\ shape dm' = shape dm
            /\ action_names dm' = action_names dm
            /\ period_secs (param dm') = period_secs (param dm))
    by (intros dm0; by exists dm0).
  assert (Hmoved : forall dm, exists dm', Some (moved_data_manager dm request) = Some dm'
            /\ massive_table_filled dm' = massive_table_filled dm
            /\ window_span dm' = window_span dm /\ shape dm' = shape dm
            /\ action_names dm' = action_names dm
            /\ period_secs (param dm') = period_secs (param dm)).
  { intros dm0. eexists. split; [done|]. unfold moved_data_manager.
    by destruct (negb _). }
  destruct (registry_lookup_cases st (st_pod request)) as [Hnone | (dm & cm & Hdm & Hcm)].
  - rewrite (StartTraining_missing st request Hnone). simpl.
    repeat split; try done. intros dm0 ->. apply Hsame.
  - destruct (moved_state_fields st request dm) as (Hq & Hc & Hs & Hl & _ & _).
    destruct (moved_state_lookup st request dm Hdm) as [Hpod Hother].
    destruct (StartTraining_cases st request dm cm Hdm Hcm)
      as [(_ & _ & ->) | (_ & [(e & _ & ->) | (i & _ & [(_ & ->) | [(_ & _ & ->) | (_ & _ & ->)]])])];
      simpl; repeat split; try done;
      try (intros dm0 ->; apply Hsame);
      try (intros dm0 Hdm0; rewrite Hpod; assert (dm0 = dm) as -> by congruence;
           apply Hmoved).
Qed.


(** X8.  A reply of [StartTraining] carries one of four results, and its
    error flag is set exactly for the two rejections. *)
Theorem StartTraining_reply_vocabulary
        (st : State) (request : StartTrainingRequest) (reply : Response) :
  snd (StartTraining st request) = Ret reply ->
  (result reply = "epoch_time_invalid" /\ error reply = true)
  \/ (result reply = "not_enough_data_for_training" /\ error reply = true
      /\ message reply = "")
  \/ (result reply = "already_training" /\ error reply = false /\ message reply = "")
  \/ (result reply = "started_training" /\ error reply = false /\ message reply = "").
Proof.
  destruct (registry_lookup_cases st (st_pod request)) as [Hnone | (dm & cm & Hdm & Hcm)].
  - by rewrite (StartTraining_missing st request Hnone).
  - destruct (StartTraining_cases st request dm cm Hdm Hcm)
      as [(_ & _ & ->) | (_ & [(e & _ & ->) | (i & _ & [(_ & ->) | [(_ & _ & ->) | (_ & _ & ->)]])])];
      simpl; try discriminate; intros [= <-]; simpl.
    + by left.
    + right. by left.
    + right. right. by left.
    + right. right. by right.
Qed.

(** X9.  A call answered [started_training] found the lock free and started
    exactly one thread, recorded as the latest one, for the requested pod
    with the pod's connector handle and an episode count that is never 0 (a
    requested 0 becomes 30).  Every other call, replying or raising, leaves
    the started threads and the latest thread as they were. *)
Theorem StartTraining_started_iff_thread (st : State) (request : StartTrainingRequest) :
  (forall reply,
      snd (StartTraining st request) = Ret reply ->
      result reply = "started_training" ->
      exists cm,
        connector_managers st !! st_pod request = Some cm
        /\ TRAINING_LOCK st = false
        /\ threads (fst (StartTraining st request))
           = (threads st ++ [requested_job request cm])%list
        /\ TRAINING_THREAD (fst (StartTraining st request))
           = Some (requested_job request cm)
        /\ job_number_episodes (requested_job request cm) <> 0)
  /\ ((forall reply, snd (StartTraining st request) = Ret reply ->
                    result reply <> "started_training") ->
      threads (fst (StartTraining st request)) = threads st
      /\ TRAINING_THREAD (fst (StartTraining st request)) = TRAINING_THREAD st).
Proof.
  destruct (registry_lookup_cases st (st_pod request)) as [Hnone | (dm & cm & Hdm & Hcm)].
  - rewrite (StartTraining_missing st request Hnone). simpl.
    split; [discriminate | done].
  - destruct (moved_state_fields st request dm) as (_ & _ & _ & _ & Hth & Htt).
    destruct (StartTraining_cases st request dm cm Hdm Hcm)
      as [(_ & _ & ->) | (_ & [(e & _ & ->) | (i & _ & [(_ & ->) | [(_ & _ & ->) | (_ & Hfree & ->)]])])];
      simpl; (split; [try discriminate; try (intros reply [= <-]; discriminate) | try done]).
    + intros reply _ _. exists cm. rewrite Hth.
      repeat split; try done. unfold requested_job. simpl.
      destruct (number_episodes request =? 0) eqn:Hn; simpl; [lia|].
      by apply Z.eqb_neq in Hn.
    + intros Hnot. by destruct (Hnot _ eq_refl).
Qed.






Lemma moved_data_manager_twice (dm : DataManager) (request : StartTrainingRequest) :
  moved_data_manager (moved_data_manager dm request) request
  = moved_data_manager dm request.
Proof. unfold moved_data_manager. by destruct (negb _). Qed.

(** The Pod Registry a call leaves: untouched when the call is rejected for
    its epoch, and that of [moved_state] otherwise. *)
Lemma StartTraining_registry (st : State) (request : StartTrainingRequest)
      (dm : DataManager) (cm : ConnectorManager) :
  data_managers st !! st_pod request = Some dm ->
  connector_managers st !! st_pod request = Some cm ->
  connector_managers (fst (StartTraining st request)) = connector_managers st
  /\ ((st_epoch_time request <> 0
       /\ to_datetime (st_epoch_time request) < epoch_time (param dm)
       /\ fst (StartTraining st request) = st)
      \/ ((st_epoch_time request = 0
           \/ epoch_time (param dm) <= to_datetime (st_epoch_time request))
          /\ data_managers (fst (StartTraining st request))
             = data_managers (moved_state st request dm))).
Proof.
  intros Hdm Hcm.
  destruct (moved_state_fields st request dm) as (_ & Hc & _).
  destruct (StartTraining_cases st request dm cm Hdm Hcm)
    as [(? & ? & ->) | (? & [(e & _ & ->) | (i & _ & [(_ & ->) | [(_ & _ & ->) | (_ & _ & ->)]])])];
    simpl; (split; [done|]); first [by left | by right].
Qed.

(** X12.  Repeating a request changes the Pod Registry no further: two
    calls with the same request leave the data managers that one call
    leaves. *)
Theorem StartTraining_repeat_same_registry (st : State) (request : StartTrainingRequest) :
  data_managers (run_StartTraining st [request; request])
  = data_managers (run_StartTraining st [request]).
Proof.
  simpl.
  destruct (registry_lookup_cases st (st_pod request)) as [Hnone | (dm & cm & Hdm & Hcm)].
  - rewrite (StartTraining_missing st request Hnone). simpl.
    by rewrite (StartTraining_missing st request Hnone).
  - destruct (StartTraining_registry st request dm cm Hdm Hcm)
      as [Hconn [(_ & _ & Hrej) | (Hcheck & Hreg)]]; [by rewrite !Hrej|].
    destruct (moved_state_lookup st request dm Hdm) as [Hpod _].
    set (st1 := fst (StartTraining st request)) in *.
    assert (Hdm1 : data_managers st1 !! st_pod request
                   = Some (moved_data_manager dm request)) by (by rewrite Hreg).
    assert (Hcm1 : connector_managers st1 !! st_pod request = Some cm)
      by (by rewrite Hconn).
    destruct (StartTraining_registry st1 request _ cm Hdm1 Hcm1)
      as [_ [(_ & _ & ->) | (_ & ->)]]; [done|].
    unfold moved_state at 1. rewrite moved_data_manager_twice.
    destruct (negb (st_epoch_time request =? 0)) eqn:Hz; [|done].
    simpl. rewrite Hreg. unfold moved_state. rewrite Hz. simpl.
    by rewrite insert_insert_eq.
Qed.

(** X13.  While no thread takes the lock, every call that passes the checks
    starts a thread: from a state with the lock free, a sequence of calls
    with [epoch_time] 0 for a pod with enough rows leaves as many more
    threads started as there were calls, the lock still free. *)
Theorem StartTraining_starts_a_thread_per_call
        (requests : list StartTrainingRequest) (st : State) (pod : string)
        (dm : DataManager) (cm : ConnectorManager) (index_of_epoch : nat) :
  data_managers st !! pod = Some dm ->
  connector_managers st !! pod = Some cm ->
  TRAINING_LOCK st = false ->
  get_loc_ffill (massive_table_filled dm) (epoch_time (param dm)) = Ret index_of_epoch ->
  window_span dm <= len_iloc_from (massive_table_filled dm) index_of_epoch ->
  Forall (fun request => st_pod request = pod /\ st_epoch_time request = 0) requests ->
  length (threads (run_StartTraining st requests))
  = (length (threads st) + length requests)%nat
  /\ TRAINING_LOCK (run_StartTraining st requests) = false.
Proof.
  intros Hdm Hcm Hfree Hloc Hrows Hall. revert st Hdm Hcm Hfree.
  induction Hall as [|request rest [Hpod Hz] _ IH]; intros st Hdm Hcm Hfree.
  - simpl. split; [lia | done].
  - simpl. subst pod.
    rewrite (StartTraining_dispatch st request dm cm index_of_epoch) by done.
    rewrite Hfree. simpl.
    destruct (IH (start_thread st (requested_job request cm))) as [Hlen Hlock];
      [done | done | done |].
    fold (requested_job request cm). rewrite Hlen, Hlock. simpl.
    rewrite length_app. simpl. split; [lia | done].
Qed.

(** ** Runs of servicer calls *)

(** What one call leaves of the queue, the Pod Registry and the Model
    Registry. *)
Lemma StartTraining_untouched (st : State) (request : StartTrainingRequest) :
  work_queue (fst (StartTraining st request)) = work_queue st
  /\ connector_managers (fst (StartTraining st request)) = connector_managers st
  /\ SAVED_MODELS (fst (StartTraining st request)) = SAVED_MODELS st
  /\ dom (data_managers (fst (StartTraining st request))) = dom (data_managers st).
Proof.
  destruct (registry_lookup_cases st (st_pod request)) as [Hnone | (dm & cm & Hdm & Hcm)].
  - by rewrite (StartTraining_missing st request Hnone).
  - destruct (moved_state_fields st request dm) as (Hq & Hc & Hs & _).
    assert (Hdom : dom (data_managers (moved_state st request dm))
                   = dom (data_managers st)).
    { unfold moved_state. destruct (negb _); [|done]. simpl.
      apply dom_insert_lookup_L. by rewrite Hdm. }
    destruct (StartTraining_cases st request dm cm Hdm Hcm)
      as [(_ & _ & ->) | (_ & [(e & _ & ->) | (i & _ & [(_ & ->) | [(_ & _ & ->) | (_ & _ & ->)]])])];
      simpl; done.
Qed.

Lemma Init_queue (st : State) (request : InitRequest) :
  fst (Init st request)
  = set_work_queue st (work_queue st ++ enqueued (CallInit request))%list.
Proof.
  assert (Hnil : st = set_work_queue st (work_queue st ++ [])%list)
    by (destruct st; unfold set_work_queue; simpl; by rewrite app_nil_r).
  unfold Init, enqueued.
  destruct (length (actions request) =? 0)%nat; simpl; [done|].
  destruct (validate_rewards _ _); simpl; [|done].
  by destruct (length (fields request) =? 0)%nat.
Qed.

Lemma AddInterpretations_untouched (st : State) (request : AddInterpretationsRequest) :
  work_queue (fst (AddInterpretations st request)) = work_queue st
  /\ connector_managers (fst (AddInterpretations st request)) = connector_managers st
  /\ SAVED_MODELS (fst (AddInterpretations st request)) = SAVED_MODELS st
  /\ dom (data_managers (fst (AddInterpretations st request))) = dom (data_managers st).
Proof.
  unfold AddInterpretations.
  destruct (data_managers st !! interp_pod request) as [dm|] eqn:Hdm; [|done].
  destruct (add_interpretations _ _) as [dm' [e|]]; simpl;
    (repeat split; try done); apply dom_insert_lookup_L; by rewrite Hdm.
Qed.

Lemma ImportModel_untouched (st : State) (request : ImportModelRequest) :
  work_queue (fst (ImportModel st request)) = work_queue st
  /\ connector_managers (fst (ImportModel st request)) = connector_managers st
  /\ data_managers (fst (ImportModel st request)) = data_managers st.
Proof.
  unfold ImportModel.
  destruct (data_managers st !! import_pod request); [|done].
  destruct (meta_json_exists _); simpl; [|done].
  destruct (read_meta_algorithm _); [|done].
  by destruct (agent_load _ _ _ _) as [[]|].
Qed.

Lemma serve_effect (st : State) (call : Call) :
  work_queue (serve st call) = (work_queue st ++ enqueued call)%list
  /\ connector_managers (serve st call) = connector_managers st
  /\ dom (data_managers (serve st call)) = dom (data_managers st)
  /\ (match call with CallImportModel _ => False | _ => True end ->
      SAVED_MODELS (serve st call) = SAVED_MODELS st).
Proof.
  destruct call as [|r|r|r|r|r|r]; simpl.
  - by rewrite app_nil_r.
  - done.
  - destruct (AddInterpretations_untouched st r) as (-> & -> & -> & ->).
    by rewrite app_nil_r.
  - destruct (StartTraining_untouched st r) as (-> & -> & -> & ->).
    by rewrite app_nil_r.
  - rewrite Init_queue. done.
  - by rewrite app_nil_r.
  - destruct (ImportModel_untouched st r) as (-> & -> & ->).
    by rewrite app_nil_r.
Qed.

Lemma serve_all_effect (calls : list Call) (st : State) :
  work_queue (serve_all st calls) = (work_queue st ++ flat_map enqueued calls)%list
  /\ connector_managers (serve_all st calls) = connector_managers st
  /\ dom (data_managers (serve_all st calls)) = dom (data_managers st)
  /\ (Forall (fun call => match call with CallImportModel _ => False | _ => True end)
             calls ->
      SAVED_MODELS (serve_all st calls) = SAVED_MODELS st).
Proof.
  revert st. induction calls as [|call rest IH]; intros st; simpl.
  - by rewrite app_nil_r.
  - destruct (IH (serve st call)) as (-> & -> & -> & Hsaved).
    destruct (serve_effect st call) as (-> & -> & -> & Hsaved1).
    rewrite <- app_assoc. repeat split; try done.
    intros Hall. inversion Hall as [|? ? Hcall Hrest]; subst.
    rewrite Hsaved by done. by apply Hsaved1.
Qed.

(** X14.  No sequence of servicer calls adds a pod to the Pod Registry or
    removes one: the data managers keep their set of pod names and the
    connector handles are exactly as before. *)
Theorem serve_all_keeps_pod_registry (calls : list Call) (st : State) :
  dom (data_managers (serve_all st calls)) = dom (data_managers st)
  /\ connector_managers (serve_all st calls) = connector_managers st.
Proof. destruct (serve_all_effect calls st) as (_ & ? & ? & _). done. Qed.

(** X15.  The queue is first in, first out over servicer calls: after any
    sequence of calls it is the queue before followed by one command for each
    [AddData] call and each accepted [Init] call, in the order of the calls;
    rejected [Init] calls and all other calls add nothing. *)
Theorem serve_all_queue_order (calls : list Call) (st : State) :
  work_queue (serve_all st calls) = (work_queue st ++ flat_map enqueued calls)%list.
Proof. by destruct (serve_all_effect calls st) as (? & _). Qed.

(** X16.  [Init] answers [ok] exactly when there is an action, the rewards
    are valid and there is a field; the error flag of its reply is clear
    exactly for [ok], and its message is always empty. *)
Theorem Init_ok_iff (st : State) (request : InitRequest) :
  (result (snd (Init st request)) = "ok"
   <-> actions request <> []
       /\ validate_rewards (actions request) (external_reward_funcs request) = true
       /\ fields request <> [])
  /\ (error (snd (Init st request)) = false <-> result (snd (Init st request)) = "ok")
  /\ message (snd (Init st request)) = "".
Proof.
  unfold Init.
  destruct (actions request) as [|a acts]; simpl.
  - repeat split; try done. by intros [? _].
  - destruct (validate_rewards (a :: acts) (external_reward_funcs request)); simpl.
    + destruct (fields request) as [|f fs]; simpl; repeat split; try done.
      by intros (_ & _ & ?).
    + repeat split; try done. by intros (_ & ? & _).
Qed.

(** X17.  A pod that is not in the Pod Registry cannot be trained after any
    sequence of servicer calls, accepted [Init] calls for it included:
    [StartTraining] still raises [KeyError], since only the event loop
    inserts pods. *)
Theorem StartTraining_after_calls_unknown_pod
        (calls : list Call) (st : State) (request : StartTrainingRequest) :
  data_managers st !! st_pod request = None ->
  StartTraining (serve_all st calls) request
  = (serve_all st calls, Raise (KeyError (st_pod request))).
Proof.
  intros Hnone. apply StartTraining_missing. left.
  destruct (serve_all_effect calls st) as (_ & _ & Hdom & _).
  apply not_elem_of_dom. rewrite Hdom. by apply not_elem_of_dom.
Qed.

Lemma ExportModel_ext (st1 st2 : State) (request : ExportModelRequest) :
  SAVED_MODELS st1 = SAVED_MODELS st2 ->
  dom (data_managers st1) = dom (data_managers st2) ->
  ExportModel st1 request = ExportModel st2 request.
Proof.
  intros Hsaved Hdom. unfold ExportModel. rewrite Hsaved.
  destruct (SAVED_MODELS st2 !! export_pod request); [|done].
  destruct (data_managers st1 !! export_pod request) as [dm1|] eqn:H1;
    destruct (data_managers st2 !! export_pod request) as [dm2|] eqn:H2; try done.
  - apply not_elem_of_dom in H2. rewrite <- Hdom in H2.
    apply not_elem_of_dom in H2. congruence.
  - apply not_elem_of_dom in H1. rewrite Hdom in H1.
    apply not_elem_of_dom in H1. congruence.
Qed.

(** X18.  What [ExportModel] answers is not changed by any sequence of
    servicer calls that contains no [ImportModel]. *)
Theorem ExportModel_stable_without_import
        (calls : list Call) (st : State) (request : ExportModelRequest) :
  Forall (fun call => match call with CallImportModel _ => False | _ => True end) calls ->
  ExportModel (serve_all st calls) request = ExportModel st request.
Proof.
  intros Hall. destruct (serve_all_effect calls st) as (_ & _ & Hdom & Hsaved).
  apply ExportModel_ext; [by apply Hsaved | done].
Qed.

End AIEngine.

(** ** The dispatcher at a concrete schedule *)

(** Once a training thread holds the lock, a further call is answered
    [already_training] and starts nothing. *)
Example StartTraining_while_lock_held :
  let st := set_TRAINING_LOCK (idle_state trader_data ∅) true in
  StartTraining whole_seconds_repr st (training_request 0)
  = (st, Ret (mkResponse "already_training" "" false)).
Proof. vm_compute. reflexivity. Qed.

(** C1.  Two [StartTraining] calls served back to back from the idle state,
    the second before the thread started by the first has taken the training
    lock: the first is answered [started_training] and leaves one started
    thread with the lock still free; the second is answered
    [started_training] too and a second thread is started.  The dispatcher
    tests the lock and never takes it, so a job that was launched does not
    yet make the next call [already_training]. *)
Theorem StartTraining_twice_both_started :
  let st0 := idle_state trader_data ∅ in
  let st1 := fst (StartTraining whole_seconds_repr st0 (training_request 0)) in
  let st2 := fst (StartTraining whole_seconds_repr st1 (training_request 0)) in
  threads st0 = []
  /\ snd (StartTraining whole_seconds_repr st0 (training_request 0))
     = Ret (mkResponse "started_training" "" false)
  /\ length (threads st1) = 1%nat
  /\ TRAINING_LOCK st1 = false
  /\ snd (StartTraining whole_seconds_repr st1 (training_request 0))
     = Ret (mkResponse "started_training" "" false)
  /\ length (threads st2) = 2%nat.
Proof. vm_compute. repeat split. Qed.

(** ** The theorems at concrete inputs *)

Lemma StartTraining_unknown_pod_witness :
  StartTraining whole_seconds_repr (idle_state trader_data ∅)
                (mkStartTrainingRequest "ghost" 0 "dql" 0 "flight-1" "")
  = (idle_state trader_data ∅, Raise (KeyError "ghost")).
Proof.
  apply (StartTraining_unknown_pod
           whole_seconds_repr (idle_state trader_data ∅)
           (mkStartTrainingRequest "ghost" 0 "dql" 0 "flight-1" "")).
  left. vm_compute. reflexivity.
Defined.



Lemma StartTraining_epoch_zero_sentinel_witness :
  data_managers (fst (StartTraining whole_seconds_repr (idle_state trader_data ∅)
                                    (training_request 0)))
  = data_managers (idle_state trader_data ∅)
  /\ exists dm',
      data_managers (fst (StartTraining whole_seconds_repr (idle_state trader_data ∅)
                                        (training_request 0))) !! "trader" = Some dm'
      /\ epoch_time (param dm') <> 0.
Proof.
  destruct (StartTraining_epoch_zero_sentinel
              whole_seconds_repr (idle_state trader_data ∅) (training_request 0))
    as [Hzero Hnever].
  split.
  - apply Hzero. reflexivity.
  - apply (Hnever "trader" trader_data).
    + vm_compute. reflexivity.
    + vm_compute. discriminate.
Defined.





(** A pod without a ModelRecord asked for tag [v2] is answered
    [pod_not_trained]: the registry test comes before the tag test. *)
Lemma ExportModel_untrained_pod_other_tag :
  tag (mkExportModelRequest "trader" "v2") <> "latest"
  /\ SAVED_MODELS (idle_state trader_data ∅) !! "trader" = None
  /\ exists reply,
      ExportModel (idle_state trader_data ∅) (mkExportModelRequest "trader" "v2")
      = Ret reply
      /\ result (response reply) = "pod_not_trained"
      /\ result (response reply) <> "tag_not_yet_supported".
Proof.
  split; [discriminate|]. split; [vm_compute; reflexivity|].
  eexists. split; [vm_compute; reflexivity|].
  split; [reflexivity | discriminate].
Defined.

Lemma ExportModel_tag_not_yet_supported_witness :
  ExportModel (idle_state trader_data {["trader" := "models/trader"]})
              (mkExportModelRequest "trader" "v2")
  = Ret (mkExportModelResult
           (mkResponse "tag_not_yet_supported"
                       "Support for multiple tags coming soon!" true)
           "").
Proof.
  destruct (ExportModel_tag_not_yet_supported
              (idle_state trader_data {["trader" := "models/trader"]})
              (mkExportModelRequest "trader" "v2")) as [H _].
  apply (H "models/trader" trader_data).
  - vm_compute. reflexivity.
  - vm_compute. reflexivity.
  - discriminate.
Defined.

Lemma ImportModel_record_implies_initialized_witness :
  let st := idle_state trader_data ∅ in
  let st' := set_SAVED_MODELS st {["trader" := "models/trader"]} in
  let st'' := fst (StartTraining whole_seconds_repr st' (training_request 110)) in
  exists exported,
    ExportModel st'' (mkExportModelRequest "trader" "latest") = Ret exported
    /\ (result (response exported) = "ok"
        \/ result (response exported) = "tag_not_yet_supported").
Proof.
  intros st st' st''.
  destruct (ImportModel_record_implies_initialized
              whole_seconds_repr sample_validate_rewards sample_Path_str
              sample_meta_json_exists sample_read_meta_algorithm sample_agent_load
              st st' st'' (mkImportModelRequest "trader" "models/trader")
              (mkResponse "ok" "" false) "latest")
    as (_ & _ & _ & _ & H).
  - vm_compute. reflexivity.
  - reflexivity.
  - apply rtc_once. apply step_StartTraining.
  - exact H.
Defined.

(** ** The further properties at concrete inputs *)

Lemma ExportModel_ok_iff_witness :
  ExportModel (idle_state trader_data {["trader" := "models/trader"]})
              (mkExportModelRequest "trader" "latest")
  = Ret (mkExportModelResult (mkResponse "ok" "" false) "models/trader").
Proof.
  apply (ExportModel_ok_iff
           (idle_state trader_data {["trader" := "models/trader"]})
           (mkExportModelRequest "trader" "latest") "models/trader").
  split; [vm_compute; reflexivity|].
  split; [exists trader_data; vm_compute; reflexivity | reflexivity].
Defined.

Lemma ExportModel_raises_iff_witness :
  exists e, ExportModel orphan_record_state (mkExportModelRequest "ghost" "latest")
            = Raise e.
Proof.
  destruct (ExportModel_raises_iff
              orphan_record_state (mkExportModelRequest "ghost" "latest"))
    as [[_ H] _].
  apply H. split; [exists "models/ghost"|]; vm_compute; reflexivity.
Defined.

Lemma ImportModel_ExportModel_latest_witness :
  ExportModel (set_SAVED_MODELS (idle_state trader_data ∅)
                                {["trader" := "models/trader"]})
              (mkExportModelRequest "trader" "latest")
  = Ret (mkExportModelResult (mkResponse "ok" "" false) "models/trader").
Proof.
  apply (ImportModel_ExportModel_latest
           sample_Path_str sample_meta_json_exists sample_read_meta_algorithm
           sample_agent_load (idle_state trader_data ∅)
           (set_SAVED_MODELS (idle_state trader_data ∅) {["trader" := "models/trader"]})
           (mkImportModelRequest "trader" "models/trader")
           (mkResponse "ok" "" false)).
  - vm_compute. reflexivity.
  - reflexivity.
Defined.

Lemma ImportModel_all_or_nothing_witness :
  fst (ImportModel sample_Path_str sample_meta_json_exists sample_read_meta_algorithm
                   sample_agent_load (idle_state trader_data ∅)
                   (mkImportModelRequest "trader" "models/nowhere"))
  = idle_state trader_data ∅.
Proof.
  destruct (ImportModel_all_or_nothing
              sample_Path_str sample_meta_json_exists sample_read_meta_algorithm
              sample_agent_load (idle_state trader_data ∅)
              (mkImportModelRequest "trader" "models/nowhere")) as [H | [H _]].
  - vm_compute in H. discriminate H.
  - exact H.
Defined.

Lemma ImportModel_ok_iff_witness :
  snd (ImportModel sample_Path_str sample_meta_json_exists sample_read_meta_algorithm
                   sample_agent_load (idle_state trader_data ∅)
                   (mkImportModelRequest "trader" "models/trader"))
  = Ret (mkResponse "ok" "" false).
Proof.
  apply (ImportModel_ok_iff
           sample_Path_str sample_meta_json_exists sample_read_meta_algorithm
           sample_agent_load (idle_state trader_data ∅)
           (mkImportModelRequest "trader" "models/trader")).
  exists trader_data, "dql".
  repeat split; vm_compute; reflexivity.
Defined.

Lemma StartTraining_frame_witness :
  exists dm',
    data_managers (fst (StartTraining whole_seconds_repr (idle_state trader_data ∅)
                                      (training_request 110))) !! "trader" = Some dm'
    /\ massive_table_filled dm' = massive_table_filled trader_data
    /\ window_span dm' = window_span trader_data
    /\ shape dm' = shape trader_data
    /\ action_names dm' = action_names trader_data
    /\ period_secs (param dm') = period_secs (param trader_data).
Proof.
  destruct (StartTraining_frame
              whole_seconds_repr (idle_state trader_data ∅) (training_request 110))
    as (_ & _ & _ & _ & _ & H).
  apply (H trader_data). vm_compute. reflexivity.
Defined.


Lemma StartTraining_reply_vocabulary_witness :
  let reply := mkResponse "epoch_time_invalid" "epoch time should be after 100.0" true in
  (result reply = "epoch_time_invalid" /\ error reply = true)
  \/ (result reply = "not_enough_data_for_training" /\ error reply = true
      /\ message reply = "")
  \/ (result reply = "already_training" /\ error reply = false /\ message reply = "")
  \/ (result reply = "started_training" /\ error reply = false /\ message reply = "").
Proof.
  intros reply.
  apply (StartTraining_reply_vocabulary
           whole_seconds_repr (idle_state trader_data ∅) (training_request 50) reply).
  vm_compute. reflexivity.
Defined.

Lemma StartTraining_started_iff_thread_witness :
  exists cm,
    connector_managers (idle_state trader_data ∅) !! "trader" = Some cm
    /\ TRAINING_LOCK (idle_state trader_data ∅) = false
    /\ threads (fst (StartTraining whole_seconds_repr (idle_state trader_data ∅)
                                   (training_request 0)))
       = [requested_job (training_request 0) cm]
    /\ TRAINING_THREAD (fst (StartTraining whole_seconds_repr (idle_state trader_data ∅)
                                           (training_request 0)))
       = Some (requested_job (training_request 0) cm)
    /\ job_number_episodes (requested_job (training_request 0) cm) <> 0.
Proof.
  destruct (StartTraining_started_iff_thread
              whole_seconds_repr (idle_state trader_data ∅) (training_request 0))
    as [H _].
  apply (H (mkResponse "started_training" "" false)).
  - vm_compute. reflexivity.
  - reflexivity.
Defined.



Lemma StartTraining_starts_a_thread_per_call_witness :
  length (threads (run_StartTraining
                     whole_seconds_repr (idle_state trader_data ∅)
                     [training_request 0; training_request 0; training_request 0]))
  = 3%nat
  /\ TRAINING_LOCK (run_StartTraining
                      whole_seconds_repr (idle_state trader_data ∅)
                      [training_request 0; training_request 0; training_request 0])
     = false.
Proof.
  apply (StartTraining_starts_a_thread_per_call
           whole_seconds_repr
           [training_request 0; training_request 0; training_request 0]
           (idle_state trader_data ∅) "trader" trader_data (mkConnectorManager 0) 0%nat).
  - vm_compute. reflexivity.
  - vm_compute. reflexivity.
  - reflexivity.
  - vm_compute. reflexivity.
  - vm_compute. discriminate.
  - repeat constructor.
Defined.

Lemma Init_ok_iff_witness :
  result (snd (Init sample_validate_rewards (idle_state trader_data ∅)
                    (mkInitRequest "trader" [("buy", "reward = 1")] "" ["price"])))
  = "ok".
Proof.
  destruct (Init_ok_iff sample_validate_rewards (idle_state trader_data ∅)
                        (mkInitRequest "trader" [("buy", "reward = 1")] "" ["price"]))
    as [[_ H] _].
  apply H. split; [discriminate|]. split; [reflexivity | discriminate].
Defined.

Lemma StartTraining_after_calls_unknown_pod_witness :
  let calls :=
    [CallInit (mkInitRequest "ghost" [("buy", "reward = 1")] "" ["price"]);
     CallAddData (mkAddDataRequest "ghost" "time,price")] in
  let st :=
    serve_all whole_seconds_repr sample_validate_rewards sample_Path_str
              sample_meta_json_exists sample_read_meta_algorithm sample_agent_load
              sample_add_interpretations (idle_state trader_data ∅) calls in
  StartTraining whole_seconds_repr st
                (mkStartTrainingRequest "ghost" 0 "dql" 0 "flight-1" "")
  = (st, Raise (KeyError "ghost")).
Proof.
  intros calls st.
  apply (StartTraining_after_calls_unknown_pod
           whole_seconds_repr sample_validate_rewards sample_Path_str
           sample_meta_json_exists sample_read_meta_algorithm sample_agent_load
           sample_add_interpretations calls (idle_state trader_data ∅)
           (mkStartTrainingRequest "ghost" 0 "dql" 0 "flight-1" "")).
  vm_compute. reflexivity.
Defined.

Lemma ExportModel_stable_without_import_witness :
  let calls :=
    [CallStartTraining (training_request 110);
     CallAddData (mkAddDataRequest "trader" "time,price");
     CallExportModel (mkExportModelRequest "trader" "v2")] in
  let st := idle_state trader_data {["trader" := "models/trader"]} in
  ExportModel
    (serve_all whole_seconds_repr sample_validate_rewards sample_Path_str
               sample_meta_json_exists sample_read_meta_algorithm sample_agent_load
               sample_add_interpretations st calls)
    (mkExportModelRequest "trader" "latest")
  = ExportModel st (mkExportModelRequest "trader" "latest").
Proof.
  intros calls st.
  apply (ExportModel_stable_without_import
           whole_seconds_repr sample_validate_rewards sample_Path_str
           sample_meta_json_exists sample_read_meta_algorithm sample_agent_load
           sample_add_interpretations calls st
           (mkExportModelRequest "trader" "latest")).
  repeat constructor.
Defined.
